(** * GrowLights: a shallow embedding of [src/i1_growlights.py]

    The AppDaemon app reads a UV-index sensor and the state of the first
    growth-light switch, compares the current wall-clock time against a
    seasonal window, and turns every configured switch on or off.

    - Python's [float] and the comparisons [>=]/[<] between the UV reading
      and the threshold are abstracted by the class [FloatModel], so every
      theorem holds for any model of them (NaN included: the comparisons are
      two independent booleans).
    - The host (AppDaemon) is a record of its clock and its [get_state],
      [turn_on]/[turn_off] services, each of which may raise.
    - Methods of the app run in a small state-and-exception monad [M]
      over the app object [self] and the trace of observable effects
      (log lines, switch commands). *)

From Stdlib Require Import ZArith String Ascii List Bool Lia.
Import ListNotations.
Open Scope string_scope.
Open Scope Z_scope.

(** ** Python values the app handles *)

(** Python's [float(s)] on a state string, and the two comparisons used by
    [check_conditions]; [py_int] embeds the integer default threshold [5]. *)
Class FloatModel := {
  num : Type;
  float_of : string -> option num;   (** [None]: [float] raised *)
  py_ge : num -> num -> bool;        (** [uv_index >= self.uv_threshold] *)
  py_lt : num -> num -> bool;        (** [uv_index < self.uv_threshold] *)
  py_int : Z -> num
}.

(** [datetime.time]: hour, minute, second, microsecond (naive). *)
Record time := mkTime {
  t_hour : Z; t_minute : Z; t_second : Z; t_micro : Z
}.

(** [datetime.time.__le__]: lexicographic on the four components. *)
Definition time_leb (a b : time) : bool :=
  (t_hour a <? t_hour b) ||
  ((t_hour a =? t_hour b) &&
   ((t_minute a <? t_minute b) ||
    ((t_minute a =? t_minute b) &&
     ((t_second a <? t_second b) ||
      ((t_second a =? t_second b) && (t_micro a <=? t_micro b)))))).

(** ** [datetime.datetime.strptime(s, "%H:%M").time()]

    [_strptime] compiles ["%H:%M"] to the regular expression
    [(?P<H>2[0-3]|[0-1]\d|\d):(?P<M>[0-5]\d|\d)], applies [re.match]
    (first successful match in alternative order, no end anchor), and then
    raises [ValueError("unconverted data remains")] when the match does not
    reach the end of the string.  Digits are the ASCII digits. *)

Definition digit (c : ascii) : option Z :=
  let n := nat_of_ascii c in
  if (48 <=? n)%nat && (n <=? 57)%nat then Some (Z.of_nat (n - 48)) else None.

Definition digit_in (lo hi : Z) (c : ascii) : option Z :=
  match digit c with
  | Some d => if (lo <=? d) && (d <=? hi) then Some d else None
  | None => None
  end.

(** The alternatives of a two-branch group [X\d|\d] or a three-branch
    group, in the order the regex engine tries them. *)
Definition re_H (s : list ascii) : list (Z * list ascii) :=
  (match s with
   | c1 :: c2 :: r =>
       match digit_in 2 2 c1, digit_in 0 3 c2 with
       | Some d1, Some d2 => [(10 * d1 + d2, r)]
       | _, _ => []
       end
   | _ => []
   end) ++
  (match s with
   | c1 :: c2 :: r =>
       match digit_in 0 1 c1, digit c2 with
       | Some d1, Some d2 => [(10 * d1 + d2, r)]
       | _, _ => []
       end
   | _ => []
   end) ++
  (match s with
   | c1 :: r => match digit c1 with Some d1 => [(d1, r)] | None => [] end
   | _ => []
   end).

Definition re_M (s : list ascii) : list (Z * list ascii) :=
  (match s with
   | c1 :: c2 :: r =>
       match digit_in 0 5 c1, digit c2 with
       | Some d1, Some d2 => [(10 * d1 + d2, r)]
       | _, _ => []
       end
   | _ => []
   end) ++
  (match s with
   | c1 :: r => match digit c1 with Some d1 => [(d1, r)] | None => [] end
   | _ => []
   end).

(** [re.match]: the first [H] alternative for which [":" M] matches. *)
Fixpoint re_match_HM (hs : list (Z * list ascii)) : option (Z * Z * list ascii) :=
  match hs with
  | [] => None
  | (h, r) :: hs' =>
      match r with
      | c :: r' =>
          if Ascii.eqb c ":" then
            match re_M r' with
            | (m, rest) :: _ => Some (h, m, rest)
            | [] => re_match_HM hs'
            end
          else re_match_HM hs'
      | [] => re_match_HM hs'
      end
  end.

(** [None]: [strptime] raised [ValueError]. *)
Definition strptime_HM (s : string) : option time :=
  match re_match_HM (re_H (list_ascii_of_string s)) with
  | Some (h, m, []) => Some (mkTime h m 0 0)
  | _ => None
  end.

(** ** Observable effects *)

Inductive level := DEBUG | INFO | WARNING | ERROR.

Inductive callback := CheckConditions | UpdateTimeRanges.

Inductive event :=
| Log (lvl : level) (msg : string)          (** [self.log(msg, level=...)] *)
| SetSwitch (on : bool) (switch : string)   (** [self.turn_on]/[self.turn_off] *)
| RunIn (cb : callback) (delay : Z)
| RunEvery (cb : callback) (start : string) (interval : Z)
| RunDaily (cb : callback) (at_ : string).

(** The switch commands of a trace, in order: [(true, s)] is [turn_on(s)]. *)
Fixpoint commands (tr : list event) : list (bool * string) :=
  match tr with
  | [] => []
  | SetSwitch b s :: tr' => (b, s) :: commands tr'
  | _ :: tr' => commands tr'
  end.

(** The scheduling calls of a trace. *)
Fixpoint schedules (tr : list event) : list event :=
  match tr with
  | [] => []
  | (RunIn _ _ as e) :: tr' | (RunEvery _ _ _ as e) :: tr'
  | (RunDaily _ _ as e) :: tr' => e :: schedules tr'
  | _ :: tr' => schedules tr'
  end.

Definition is_error (e : event) : bool :=
  match e with Log ERROR _ => true | _ => false end.

(** A method's outcome: a value, or an exception escaping it. *)
Inductive result (A : Type) := Ok (a : A) | Raise.
Arguments Ok {A} a.
Arguments Raise {A}.

(** ** A state-and-exception monad over a state [S] *)

Definition ST (S A : Type) := S -> result A * S.

Definition ret {S A} (a : A) : ST S A := fun w => (Ok a, w).

Definition bind {S A B} (m : ST S A) (k : A -> ST S B) : ST S B :=
  fun w => match m w with
           | (Ok a, w') => k a w'
           | (Raise, w') => (Raise, w')
           end.

Notation "x <- m ;; k" := (bind m (fun x => k))
  (at level 61, m at next level, right associativity).
Notation "m ;;; k" := (bind m (fun _ => k))
  (at level 61, right associativity).

(** [try: body except Exception: handler]. *)
Definition try_except {S A} (body : ST S A) (handler : ST S A) : ST S A :=
  fun w => match body w with
           | (Raise, w') => handler w'
           | r => r
           end.

Definition lift {S A} (o : option A) : ST S A :=
  fun w => match o with Some a => (Ok a, w) | None => (Raise, w) end.

Fixpoint for_each {S A} (f : A -> ST S unit) (l : list A) : ST S unit :=
  match l with
  | [] => ret tt
  | x :: l' => f x ;;; for_each f l'
  end.

Section App.
Context {F : FloatModel}.

(** ** The app object *)

(** [self.args]: [None] is a missing key. *)
Record Args := mkArgs {
  arg_uv_index_sensor : option string;
  arg_uv_index_threshold : option num;
  arg_switches : option (list string);
  arg_off_season_start : option string;
  arg_off_season_end : option string;
  arg_on_season_start : option string;
  arg_on_season_end : option string
}.

(** The attributes of a [GrowLights] object after a successful
    [initialize]. *)
Record GrowLights := mkGrowLights {
  uv_sensor : string;
  uv_threshold : num;
  switches : list string;
  off_season_start : string;
  off_season_end : string;
  on_season_start : string;
  on_season_end : string;
  off_season_start_time : time;
  off_season_end_time : time;
  on_season_start_time : time;
  on_season_end_time : time
}.

Definition get_default {A} (o : option A) (d : A) : A :=
  match o with Some x => x | None => d end.

(** Python truthiness of [self.uv_sensor] and [self.switches]. *)
Definition truthy_str (o : option string) : bool :=
  match o with Some s => negb (String.eqb s "") | None => false end.

Definition truthy_list {A} (l : list A) : bool :=
  match l with [] => false | _ => true end.

(** [_parse_time_configs]: the four [strptime] calls in order; the first
    failure logs and re-raises ([None]). *)
Definition parse_time_configs (s1 s2 s3 s4 : string)
  : option (time * time * time * time) :=
  match strptime_HM s1, strptime_HM s2, strptime_HM s3, strptime_HM s4 with
  | Some t1, Some t2, Some t3, Some t4 => Some (t1, t2, t3, t4)
  | _, _, _, _ => None
  end.

(** [initialize]: the configured object (when every attribute got set) and
    the effects. *)
Definition initialize (a : Args) : option GrowLights * list event :=
  let uv_sensor := arg_uv_index_sensor a in
  let uv_threshold := get_default (arg_uv_index_threshold a) (py_int 5) in
  let switches := get_default (arg_switches a) [] in
  let off_start := get_default (arg_off_season_start a) "09:00" in
  let off_end := get_default (arg_off_season_end a) "15:00" in
  let on_start := get_default (arg_on_season_start a) "06:00" in
  let on_end := get_default (arg_on_season_end a) "18:00" in
  if negb (truthy_str uv_sensor) then
    (None, [Log ERROR "Error: UV index sensor not configured"])
  else if negb (truthy_list switches) then
    (None, [Log ERROR "Error: No switches configured"])
  else
    match parse_time_configs off_start off_end on_start on_end with
    | None =>
        (None, [Log ERROR "Error parsing time configuration";
                Log ERROR "Error initializing Grow Lights app"])
    | Some (t1, t2, t3, t4) =>
        (Some (mkGrowLights (get_default uv_sensor "") uv_threshold switches
                 off_start off_end on_start on_end t1 t2 t3 t4),
         [RunIn CheckConditions 0;
          RunEvery CheckConditions "now" (10 * 60);
          RunDaily UpdateTimeRanges "00:01";
          Log INFO "Grow Lights app initialized successfully"])
    end.

(** ** The host and the method monad *)

(** AppDaemon as seen from one callback: the clock (read by every
    [datetime.datetime.now()] of the callback), [get_state] and the two
    switch services, each of which may raise ([None]). *)
Record Host := mkHost {
  now_month : Z;
  now_time : time;
  host_get_state : string -> option (option string);
  host_switch : bool -> string -> option unit
}.

Record world := mkWorld { self : GrowLights; trace : list event }.

Definition M (A : Type) := ST world A.

Definition get_self : M GrowLights := fun w => (Ok (self w), w).

Definition emit (e : event) : M unit :=
  fun w => (Ok tt, mkWorld (self w) (trace w ++ [e])).

Definition log (lvl : level) (msg : string) : M unit := emit (Log lvl msg).

Section Methods.
Variable h : Host.

Definition get_state (entity : string) : M (option string) :=
  lift (host_get_state h entity).

(** [self.turn_on(switch) if turn_on else self.turn_off(switch)]: the call
    is made (and observed) whether or not the service then raises. *)
Definition set_switch (turn_on : bool) (switch : string) : M unit :=
  fun w => (match host_switch h turn_on switch with
            | Some tt => Ok tt
            | None => Raise
            end, mkWorld (self w) (trace w ++ [SetSwitch turn_on switch])).

(** [current_state == "on"] for the value returned by [get_state]. *)
Definition state_is (st : option string) (v : string) : bool :=
  match st with Some s => String.eqb s v | None => false end.

(** [is_summer_season]: [6 <= current_month <= 8]; its handler is
    unreachable. *)
Definition is_summer_season : bool :=
  (6 <=? now_month h) && (now_month h <=? 8).

(** [is_active_time]. *)
Definition is_active_time (c : GrowLights) : bool :=
  let current_time := now_time h in
  if is_summer_season then
    time_leb (on_season_start_time c) current_time &&
    time_leb current_time (on_season_end_time c)
  else
    time_leb (off_season_start_time c) current_time &&
    time_leb current_time (off_season_end_time c).

(** [get_uv_index]. *)
Definition get_uv_index : M (option num) :=
  try_except
    (c <- get_self ;;
     uv_state <- get_state (uv_sensor c) ;;
     match uv_state with
     | Some s =>
         if negb (String.eqb s "unavailable") then
           x <- lift (float_of s) ;; ret (Some x)
         else log WARNING "UV sensor is unavailable" ;;; ret None
     | None => log WARNING "UV sensor is unavailable" ;;; ret None
     end)
    (log ERROR "Error getting UV index" ;;; ret None).

(** [control_lights]. *)
Definition control_lights (turn_on : bool) : M unit :=
  try_except
    (c <- get_self ;;
     log INFO (if turn_on then "Turning lights on" else "Turning lights off") ;;;
     for_each
       (fun switch =>
          try_except
            (set_switch turn_on switch ;;;
             log DEBUG ("Set " ++ switch))
            (log ERROR ("Error controlling switch " ++ switch)))
       (switches c))
    (log ERROR "Error controlling lights").

(** [check_conditions]. *)
Definition check_conditions : M unit :=
  try_except
    (c <- get_self ;;
     if negb (is_active_time c) then
       log DEBUG "Skipping UV check - outside active hours"
     else
       uv_index <- get_uv_index ;;
       match uv_index with
       | None => log ERROR "Error: UV index is None"
       | Some u =>
           current_state <-
             match switches c with
             | [] => ret None
             | s0 :: _ => get_state s0
             end ;;
           if py_ge u (uv_threshold c) && state_is current_state "off" then
             log DEBUG "Lights remain off"
           else if py_lt u (uv_threshold c) && state_is current_state "on" then
             log DEBUG "Lights remain on"
           else
             control_lights (state_is current_state "on")
       end)
    (log ERROR "Error in check_conditions").

(** [update_time_ranges]. *)
Definition update_time_ranges : M unit :=
  try_except
    (c <- get_self ;;
     let is_summer := is_summer_season in
     let season_name := if is_summer then "summer" else "winter" in
     let start_time := if is_summer then on_season_start c else off_season_start c in
     let end_time := if is_summer then on_season_end c else off_season_end c in
     log INFO ("Updated to " ++ season_name ++ " schedule: " ++
               start_time ++ " - " ++ end_time))
    (log ERROR "Error updating time ranges").

End Methods.

(** One evaluation tick on a freshly started trace: its commands. *)
Definition tick_commands (h : Host) (c : GrowLights) : list (bool * string) :=
  commands (trace (snd (check_conditions h (mkWorld c [])))).

End App.

(** ** A concrete float model and host, for evaluating scenarios *)

(** Python's [float] on plain decimal integer literals (["3"], ["7"]);
    every other string is reported as raising. *)
Fixpoint decimal_value (l : list ascii) (acc : Z) : option Z :=
  match l with
  | [] => Some acc
  | c :: l' =>
      match digit c with
      | Some d => decimal_value l' (10 * acc + d)
      | None => None
      end
  end.

Definition decimal_float (s : string) : option Z :=
  match list_ascii_of_string s with
  | [] => None
  | l => decimal_value l 0
  end.

#[export] Instance ZFloat : FloatModel := {
  num := Z;
  float_of := decimal_float;
  py_ge := Z.geb;
  py_lt := Z.ltb;
  py_int := fun z => z
}.

Definition at_clock (hh mm : Z) : time := mkTime hh mm 0 0.

(** The app as configured by [a], after one tick on host [h]. *)
Definition tick_after_init {Fl : FloatModel} (a : Args) (h : Host)
  : option (list (bool * string)) :=
  option_map (tick_commands h) (fst (initialize a)).

Definition example_args : @Args ZFloat :=
  mkArgs (Some "sensor.uv_index") None
         (Some ["switch.grow_1"; "switch.grow_2"]) None None None None.

(** A host whose UV sensor reports [uv] and whose switches all report
    [sw]; every switch service call succeeds. *)
Definition lab_host (month : Z) (t : time) (uv sw : option string) : Host :=
  mkHost month t
    (fun e => if String.eqb e "sensor.uv_index" then Some uv else Some sw)
    (fun _ _ => Some tt).

(** ** What one tick does *)

Section TickFacts.
Local Open Scope list_scope.
Context {F : FloatModel}.
Variable h : Host.

(** The value [get_uv_index] returns, read off the host. *)
Definition uv_reading (c : GrowLights) : option num :=
  match host_get_state h (uv_sensor c) with
  | Some (Some s) => if String.eqb s "unavailable" then None else float_of s
  | _ => None
  end.

(** The commands one tick issues, read off the branches of
    [check_conditions]. *)
Definition tick_decision (c : GrowLights) : list (bool * string) :=
  if negb (is_active_time h c) then []
  else
    match uv_reading c with
    | None => []
    | Some u =>
        match match switches c with
              | [] => Some None
              | s0 :: _ => host_get_state h s0
              end with
        | None => []
        | Some cs =>
            if py_ge u (uv_threshold c) && state_is cs "off" then []
            else if py_lt u (uv_threshold c) && state_is cs "on" then []
            else map (pair (state_is cs "on")) (switches c)
        end
    end.

Lemma commands_app (a b : list event) :
  commands (a ++ b) = commands a ++ commands b.
Proof.
  induction a as [|e a IH]; [reflexivity|].
  destruct e; simpl; rewrite ?IH; reflexivity.
Qed.

Lemma bind_ok {A B} (m : M A) (k : A -> M B) (w : world) (a : A) (w' : world) :
  m w = (Ok a, w') -> bind m k w = k a w'.
Proof. intros E. unfold bind. rewrite E. reflexivity. Qed.

Lemma try_except_ok {A} (body handler : M A) (w : world) (a : A) (w' : world) :
  body w = (Ok a, w') -> try_except body handler w = (Ok a, w').
Proof. intros E. unfold try_except. rewrite E. reflexivity. Qed.

Lemma try_except_raise {A} (body handler : M A) (w w' : world) :
  body w = (Raise, w') -> try_except body handler w = handler w'.
Proof. intros E. unfold try_except. rewrite E. reflexivity. Qed.

(** A loop whose body commands each visited switch once and keeps [self]
    commands the whole list. *)
Lemma for_each_run (b : bool) (f : string -> M unit) :
  (forall sw w, exists tr,
      f sw w = (Ok tt, mkWorld (self w) (trace w ++ tr))
      /\ commands tr = [(b, sw)]) ->
  forall l w, exists tr,
    for_each f l w = (Ok tt, mkWorld (self w) (trace w ++ tr))
    /\ commands tr = map (pair b) l.
Proof.
  intros Hf l. induction l as [|s l IH]; intros w.
  - exists []. rewrite app_nil_r. destruct w. split; reflexivity.
  - destruct (Hf s w) as [tr1 [E1 C1]].
    destruct (IH (mkWorld (self w) (trace w ++ tr1))) as [tr2 [E2 C2]].
    exists (tr1 ++ tr2). split.
    + simpl. rewrite (bind_ok _ _ _ _ _ E1), E2. simpl.
      rewrite app_assoc. reflexivity.
    + rewrite commands_app, C1, C2. reflexivity.
Qed.

(** One turn of the per-switch loop of [control_lights]: the service is
    called whether or not it then raises. *)
Lemma control_switch_run (b : bool) (sw : string) (w : world) :
  exists tr,
    try_except
      (set_switch h b sw ;;; log DEBUG ("Set " ++ sw)%string)
      (log ERROR ("Error controlling switch " ++ sw)%string) w
    = (Ok tt, mkWorld (self w) (trace w ++ tr))
    /\ commands tr = [(b, sw)].
Proof.
  destruct w as [c tr0].
  unfold try_except, set_switch, bind, log, emit; simpl.
  destruct (host_switch h b sw) as [[]|]; simpl;
    (eexists; split; [rewrite <- app_assoc; reflexivity | reflexivity]).
Qed.

Lemma control_lights_run (b : bool) (w : world) :
  exists tr,
    control_lights h b w = (Ok tt, mkWorld (self w) (trace w ++ tr))
    /\ commands tr = map (pair b) (switches (self w)).
Proof.
  destruct w as [c tr0].
  set (le := Log INFO (if b then "Turning lights on" else "Turning lights off")).
  destruct (for_each_run b
              (fun sw => try_except
                 (set_switch h b sw ;;; log DEBUG ("Set " ++ sw)%string)
                 (log ERROR ("Error controlling switch " ++ sw)%string))
              (control_switch_run b) (switches c)
              (mkWorld c (tr0 ++ [le]))) as [tr [E C]].
  exists (le :: tr). split.
  - unfold control_lights. apply try_except_ok.
    erewrite bind_ok by reflexivity.
    erewrite bind_ok by reflexivity.
    cbn [self trace]. fold le. rewrite E. simpl.
    rewrite <- app_assoc. reflexivity.
  - simpl. exact C.
Qed.

Lemma get_uv_index_run (w : world) :
  exists tr,
    get_uv_index h w = (Ok (uv_reading (self w)), mkWorld (self w) (trace w ++ tr))
    /\ commands tr = [].
Proof.
  destruct w as [c tr0]. unfold get_uv_index, uv_reading, try_except, get_self,
    get_state, lift, bind, log, emit, ret; simpl.
  destruct (host_get_state h (uv_sensor c)) as [[s|]|]; simpl.
  - destruct (String.eqb s "unavailable"); simpl.
    + eexists; split; [reflexivity|reflexivity].
    + destruct (float_of s); simpl.
      * exists []. rewrite app_nil_r. split; reflexivity.
      * eexists; split; [reflexivity|reflexivity].
  - eexists; split; [reflexivity|reflexivity].
  - eexists; split; [reflexivity|reflexivity].
Qed.

(** [check_conditions] returns normally, keeps [self], and issues exactly
    the commands of [tick_decision]. *)
Lemma check_conditions_run (w : world) :
  exists tr,
    check_conditions h w = (Ok tt, mkWorld (self w) (trace w ++ tr))
    /\ commands tr = tick_decision (self w).
Proof.
  destruct w as [c tr0]. unfold tick_decision. cbn [self trace].
  destruct (get_uv_index_run (mkWorld c tr0)) as [tr1 [E1 C1]].
  cbn [self trace] in E1.
  unfold check_conditions, try_except, bind, get_self, log, emit, ret,
    get_state, lift.
  cbn -[get_uv_index control_lights is_active_time].
  destruct (is_active_time h c) eqn:Ha; cbn [negb].
  2: { eexists; split; reflexivity. }
  rewrite E1.
  destruct (uv_reading c) as [u|] eqn:Hu.
  2: { exists (tr1 ++ [Log ERROR "Error: UV index is None"]). simpl.
       rewrite app_assoc, commands_app, C1. split; reflexivity. }
  destruct (switches c) as [|s0 rest] eqn:Hs.
  - destruct (control_lights_run false (mkWorld c (tr0 ++ tr1))) as [tr2 [E2 C2]].
    cbn [self trace] in E2, C2. rewrite Hs in C2.
    cbn [state_is]. rewrite !andb_false_r. rewrite E2.
    exists (tr1 ++ tr2). rewrite app_assoc, commands_app, C1, C2.
    split; reflexivity.
  - unfold get_state, lift.
    destruct (host_get_state h s0) as [cs|] eqn:Hg.
    + destruct (py_ge u (uv_threshold c) && state_is cs "off").
      { exists (tr1 ++ [Log DEBUG "Lights remain off"]). simpl.
        rewrite app_assoc, commands_app, C1. split; reflexivity. }
      destruct (py_lt u (uv_threshold c) && state_is cs "on").
      { exists (tr1 ++ [Log DEBUG "Lights remain on"]). simpl.
        rewrite app_assoc, commands_app, C1. split; reflexivity. }
      destruct (control_lights_run (state_is cs "on") (mkWorld c (tr0 ++ tr1)))
        as [tr2 [E2 C2]].
      cbn [self trace] in E2, C2. rewrite Hs in C2. rewrite E2.
      exists (tr1 ++ tr2). rewrite app_assoc, commands_app, C1, C2.
      split; reflexivity.
    + exists (tr1 ++ [Log ERROR "Error in check_conditions"]). simpl.
      rewrite app_assoc, commands_app, C1. split; reflexivity.
Qed.

Lemma tick_commands_decision (c : GrowLights) :
  tick_commands h c = tick_decision c.
Proof.
  unfold tick_commands.
  destruct (check_conditions_run (mkWorld c [])) as [tr [E C]].
  rewrite E. exact C.
Qed.

End TickFacts.

Definition example_app : @GrowLights ZFloat :=
  mkGrowLights "sensor.uv_index" 5 ["switch.grow_1"; "switch.grow_2"]
    "09:00" "15:00" "06:00" "18:00"
    (at_clock 9 0) (at_clock 15 0) (at_clock 6 0) (at_clock 18 0).

(** ** Time comparisons *)

Lemma time_leb_trans (a b c : time) :
  time_leb a b = true -> time_leb b c = true -> time_leb a c = true.
Proof.
  destruct a as [h1 m1 s1 u1], b as [h2 m2 s2 u2], c as [h3 m3 s3 u3].
  unfold time_leb; simpl.
  rewrite !orb_true_iff, !andb_true_iff, !orb_true_iff, !andb_true_iff,
    !orb_true_iff, !andb_true_iff, !Z.ltb_lt, !Z.eqb_eq, !Z.leb_le.
  intros H1 H2. lia.
Qed.

Lemma time_leb_refl (a : time) : time_leb a a = true.
Proof.
  unfold time_leb. rewrite !Z.eqb_refl, Z.leb_refl, !orb_true_r. reflexivity.
Qed.

Lemma example_app_init : fst (initialize example_args) = Some example_app.
Proof. reflexivity. Qed.

(** ** The claims *)

(** C1 (code defect).  In July at 10:00 with the default threshold 5 and
    both switches off, a UV reading of 3 makes the tick send turn-off (not
    turn-on) to every switch; with both switches on and a reading of 7 it
    sends turn-on (not turn-off): [control_lights(current_state == "on")]
    re-commands the current state instead of the desired one. *)
Theorem c1_uv_decision_inverted :
  tick_after_init example_args
    (lab_host 7 (at_clock 10 0) (Some "3") (Some "off"))
  = Some [(false, "switch.grow_1"); (false, "switch.grow_2")]
  /\ tick_after_init example_args
       (lab_host 7 (at_clock 10 0) (Some "7") (Some "on"))
  = Some [(true, "switch.grow_1"); (true, "switch.grow_2")].
Proof. split; vm_compute; reflexivity. Qed.

(** C2, as stated, fails: in January at 16:00 (outside 09:00-15:00) with
    the switches on, the tick issues no command at all. *)
Lemma c2_january_16h_no_turn_off :
  tick_after_init example_args
    (lab_host 1 (at_clock 16 0) (Some "7") (Some "on")) = Some [].
Proof. vm_compute. reflexivity. Qed.

Section Claims.
Context {F : FloatModel}.

(** C2 (amended).  On every tick whose time lies outside the active
    window, no switch command is issued, whatever the UV reading and the
    switch states: [check_conditions] returns early. *)
Theorem c2_outside_window_no_command (h : Host) (c : GrowLights) :
  is_active_time h c = false -> tick_commands h c = [].
Proof.
  intros Ha. rewrite tick_commands_decision. unfold tick_decision.
  rewrite Ha. reflexivity.
Qed.

(** C3 (amended).  On every tick whose UV reading is unavailable or
    unparsable (the sensor state missing, ["unavailable"], not accepted
    by [float], or the read raising), no switch command is issued: the
    tick logs an error and returns. *)
Theorem c3_no_uv_reading_no_command (h : Host) (c : GrowLights) :
  host_get_state h (uv_sensor c) = None \/
  host_get_state h (uv_sensor c) = Some None \/
  host_get_state h (uv_sensor c) = Some (Some "unavailable") \/
  (exists s, host_get_state h (uv_sensor c) = Some (Some s) /\
             float_of s = None) ->
  tick_commands h c = [].
Proof.
  intros Hs. rewrite tick_commands_decision. unfold tick_decision.
  assert (Hu : uv_reading h c = None).
  { unfold uv_reading.
    destruct Hs as [E|[E|[E|[s [E Hf]]]]]; rewrite E; try reflexivity.
    destruct (String.eqb s "unavailable"); [reflexivity | exact Hf]. }
  rewrite Hu. destruct (negb (is_active_time h c)); reflexivity.
Qed.

(** C4 (amended).  A missing or ["unavailable"] state of the first switch
    does not abort the tick: when the time is inside the active window and
    the UV reading is valid, one command of the same direction is sent to
    every configured switch. *)
Theorem c4_unavailable_switch_still_commands
    (h : Host) (c : GrowLights) (s0 : string) (rest : list string)
    (s : string) (u : num) :
  switches c = s0 :: rest ->
  is_active_time h c = true ->
  host_get_state h (uv_sensor c) = Some (Some s) ->
  s <> "unavailable" ->
  float_of s = Some u ->
  host_get_state h s0 = Some None \/
  host_get_state h s0 = Some (Some "unavailable") ->
  exists b, tick_commands h c = map (pair b) (switches c)
            /\ tick_commands h c <> [].
Proof.
  intros Hsw Ha Hs Hne Hf Hst.
  rewrite tick_commands_decision. unfold tick_decision.
  assert (Hu : uv_reading h c = Some u).
  { unfold uv_reading. rewrite Hs.
    destruct (String.eqb_spec s "unavailable"); [contradiction | exact Hf]. }
  rewrite Ha, Hu, Hsw. simpl negb. cbv iota.
  exists false.
  destruct Hst as [Hst|Hst]; rewrite Hst; simpl; rewrite !andb_false_r;
    (split; [reflexivity | discriminate]).
Qed.

(** C5.  Idempotence of a tick: when the first switch already shows the
    desired state (off outside the window, off with a UV reading at or
    above the threshold, on with a reading below it), no switch command is
    issued. *)
Theorem c5_tick_idempotent
    (h : Host) (c : GrowLights) (s0 : string) (rest : list string) :
  switches c = s0 :: rest ->
  (is_active_time h c = false /\ host_get_state h s0 = Some (Some "off"))
  \/ (exists s u, is_active_time h c = true /\
        host_get_state h (uv_sensor c) = Some (Some s) /\
        s <> "unavailable" /\ float_of s = Some u /\
        py_ge u (uv_threshold c) = true /\
        host_get_state h s0 = Some (Some "off"))
  \/ (exists s u, is_active_time h c = true /\
        host_get_state h (uv_sensor c) = Some (Some s) /\
        s <> "unavailable" /\ float_of s = Some u /\
        py_lt u (uv_threshold c) = true /\
        host_get_state h s0 = Some (Some "on")) ->
  tick_commands h c = [].
Proof.
  intros Hsw Hcase. rewrite tick_commands_decision. unfold tick_decision.
  destruct Hcase as [[Ha _]|[[s [u [Ha [Hs [Hne [Hf [Hge Hst]]]]]]]
                            |[s [u [Ha [Hs [Hne [Hf [Hlt Hst]]]]]]]]].
  - rewrite Ha. reflexivity.
  - assert (Hu : uv_reading h c = Some u).
    { unfold uv_reading. rewrite Hs.
      destruct (String.eqb_spec s "unavailable"); [contradiction | exact Hf]. }
    rewrite Ha, Hu, Hsw, Hst. simpl negb. cbv iota.
    rewrite Hge. reflexivity.
  - assert (Hu : uv_reading h c = Some u).
    { unfold uv_reading. rewrite Hs.
      destruct (String.eqb_spec s "unavailable"); [contradiction | exact Hf]. }
    rewrite Ha, Hu, Hsw, Hst. simpl negb. cbv iota.
    rewrite Hlt. simpl. rewrite andb_false_r. reflexivity.
Qed.

End Claims.

(** ** Concrete instances of C2-C5 *)

Definition july_10h (uv sw : option string) : Host :=
  lab_host 7 (at_clock 10 0) uv sw.

Lemma c2_witness :
  is_active_time (lab_host 1 (at_clock 16 0) (Some "7") (Some "on")) example_app = false
  /\ tick_commands (lab_host 1 (at_clock 16 0) (Some "7") (Some "on")) example_app = [].
Proof.
  split; [reflexivity|].
  apply c2_outside_window_no_command. reflexivity.
Defined.

(** C3, as stated, fails: in July at 10:00 with the sensor reporting
    ["unavailable"] and the switches off, no turn-on command is issued. *)
Lemma c3_unavailable_uv_no_turn_on :
  tick_after_init example_args (july_10h (Some "unavailable") (Some "off"))
  = Some [].
Proof. vm_compute. reflexivity. Qed.

Lemma c3_witness :
  tick_commands (july_10h (Some "unavailable") (Some "off")) example_app = [].
Proof.
  apply c3_no_uv_reading_no_command.
  right; right; left. reflexivity.
Defined.

(** C4, as stated, fails: in July at 10:00 with UV ["3"] and the first
    switch ["unavailable"], the tick still commands both switches. *)
Lemma c4_unavailable_switch_commands :
  tick_after_init example_args (july_10h (Some "3") (Some "unavailable"))
  = Some [(false, "switch.grow_1"); (false, "switch.grow_2")].
Proof. vm_compute. reflexivity. Qed.

Lemma c4_witness :
  exists b, tick_commands (july_10h (Some "3") (Some "unavailable")) example_app
            = map (pair b) (switches example_app)
            /\ tick_commands (july_10h (Some "3") (Some "unavailable")) example_app <> [].
Proof.
  apply (@c4_unavailable_switch_still_commands ZFloat _ _ "switch.grow_1" ["switch.grow_2"]
           "3" 3); try reflexivity.
  - discriminate.
  - right. reflexivity.
Defined.

(** July at 19:00 (outside 06:00-18:00), switches already off: no command. *)
Lemma c5_witness :
  tick_commands (lab_host 7 (at_clock 19 0) (Some "7") (Some "off")) example_app = [].
Proof.
  apply (c5_tick_idempotent _ _ "switch.grow_1" ["switch.grow_2"]);
    [reflexivity|].
  left. split; reflexivity.
Defined.

(** ** Season and window, as functions of the month *)

Definition summer_month (m : Z) : bool := (m =? 6) || (m =? 7) || (m =? 8).

Definition window_start {F : FloatModel} (m : Z) (c : GrowLights) : time :=
  if summer_month m then on_season_start_time c else off_season_start_time c.

Definition window_end {F : FloatModel} (m : Z) (c : GrowLights) : time :=
  if summer_month m then on_season_end_time c else off_season_end_time c.

Section WindowFacts.
Context {F : FloatModel}.

Lemma is_summer_season_month (h : Host) :
  is_summer_season h = summer_month (now_month h).
Proof.
  unfold is_summer_season, summer_month.
  destruct (Z.leb_spec 6 (now_month h)), (Z.leb_spec (now_month h) 8),
    (Z.eqb_spec (now_month h) 6), (Z.eqb_spec (now_month h) 7),
    (Z.eqb_spec (now_month h) 8); simpl; try reflexivity; lia.
Qed.

Lemma is_active_time_window (h : Host) (c : GrowLights) :
  is_active_time h c =
  time_leb (window_start (now_month h) c) (now_time h) &&
  time_leb (now_time h) (window_end (now_month h) c).
Proof.
  unfold is_active_time, window_start, window_end.
  rewrite is_summer_season_month.
  destruct (summer_month (now_month h)); reflexivity.
Qed.

Lemma tick_inactive (h : Host) (c : GrowLights) :
  is_active_time h c = false -> tick_commands h c = [].
Proof.
  intros Ha. rewrite tick_commands_decision. unfold tick_decision.
  rewrite Ha. reflexivity.
Qed.

End WindowFacts.

Section Claims2.
Context {F : FloatModel}.

(** C6.  [initialize] rejects a configuration without a sensor id (missing
    or empty), with a missing or empty switch list, or with a boundary time
    that [strptime(..., "%H:%M")] refuses: it logs an error, leaves the app
    unconfigured and schedules nothing.  A configuration with a sensor id,
    a non-empty switch list and four parsable times gets the periodic
    [check_conditions] and the daily [update_time_ranges] scheduled. *)
Theorem c6_initialize_validation (a : Args) :
  ((arg_uv_index_sensor a = None \/ arg_uv_index_sensor a = Some "") \/
   get_default (arg_switches a) [] = [] \/
   strptime_HM (get_default (arg_off_season_start a) "09:00") = None \/
   strptime_HM (get_default (arg_off_season_end a) "15:00") = None \/
   strptime_HM (get_default (arg_on_season_start a) "06:00") = None \/
   strptime_HM (get_default (arg_on_season_end a) "18:00") = None ->
   fst (initialize a) = None /\ schedules (snd (initialize a)) = [] /\
   existsb is_error (snd (initialize a)) = true)
  /\
  ((exists s, arg_uv_index_sensor a = Some s /\ s <> "") ->
   get_default (arg_switches a) [] <> [] ->
   (exists t, strptime_HM (get_default (arg_off_season_start a) "09:00") = Some t) ->
   (exists t, strptime_HM (get_default (arg_off_season_end a) "15:00") = Some t) ->
   (exists t, strptime_HM (get_default (arg_on_season_start a) "06:00") = Some t) ->
   (exists t, strptime_HM (get_default (arg_on_season_end a) "18:00") = Some t) ->
   In (RunEvery CheckConditions "now" (10 * 60)) (schedules (snd (initialize a))) /\
   In (RunDaily UpdateTimeRanges "00:01") (schedules (snd (initialize a))) /\
   existsb is_error (snd (initialize a)) = false).
Proof.
  split.
  - intros H. unfold initialize. cbv zeta.
    destruct (negb (truthy_str (arg_uv_index_sensor a))) eqn:E1.
    { split; [reflexivity | split; reflexivity]. }
    destruct (negb (truthy_list (get_default (arg_switches a) []))) eqn:E2.
    { split; [reflexivity | split; reflexivity]. }
    assert (Hp : parse_time_configs
                   (get_default (arg_off_season_start a) "09:00")
                   (get_default (arg_off_season_end a) "15:00")
                   (get_default (arg_on_season_start a) "06:00")
                   (get_default (arg_on_season_end a) "18:00") = None).
    { destruct H as [[Hs|Hs]|[Hw|Ht]].
      - rewrite Hs in E1. discriminate.
      - rewrite Hs in E1. discriminate.
      - rewrite Hw in E2. discriminate.
      - unfold parse_time_configs.
        destruct Ht as [T|[T|[T|T]]]; rewrite T;
          repeat match goal with
                 | |- context [match strptime_HM ?x with _ => _ end] =>
                     destruct (strptime_HM x)
                 end; reflexivity. }
    rewrite Hp. split; [reflexivity | split; reflexivity].
  - intros [s [Hs Hne]] Hw [t1 T1] [t2 T2] [t3 T3] [t4 T4].
    unfold initialize. cbv zeta. rewrite Hs.
    unfold truthy_str. destruct (String.eqb_spec s ""); [contradiction|].
    destruct (get_default (arg_switches a) []) as [|x l]; [contradiction|].
    unfold parse_time_configs. rewrite T1, T2, T3, T4. simpl.
    split; [auto | split; [auto | reflexivity]].
Qed.

(** C7.  A tick never lets an exception escape, whatever the host's
    [get_state] and switch services raise, and its commands are either
    none or one command of the same direction to every configured switch;
    [control_lights] attempts the command on every switch even when some
    of the calls raise. *)
Theorem c7_tick_total_and_best_effort :
  (forall (h : Host) (w : world), exists tr,
      check_conditions h w = (Ok tt, mkWorld (self w) (trace w ++ tr))
      /\ (commands tr = [] \/
          exists b, commands tr = map (pair b) (switches (self w))))
  /\
  (forall (h : Host) (b : bool) (w : world), exists tr,
      control_lights h b w = (Ok tt, mkWorld (self w) (trace w ++ tr))
      /\ commands tr = map (pair b) (switches (self w))).
Proof.
  split.
  - intros h w. destruct (check_conditions_run h w) as [tr [E C]].
    exists tr. split; [exact E|]. rewrite C. unfold tick_decision.
    destruct (negb (is_active_time h (self w))); [left; reflexivity|].
    destruct (uv_reading h (self w)) as [u|]; [|left; reflexivity].
    destruct (match switches (self w) with
              | [] => Some None
              | s0 :: _ => host_get_state h s0
              end) as [cs|]; [|left; reflexivity].
    destruct (py_ge u (uv_threshold (self w)) && state_is cs "off");
      [left; reflexivity|].
    destruct (py_lt u (uv_threshold (self w)) && state_is cs "on");
      [left; reflexivity|].
    right. eexists. reflexivity.
  - intros h b w. apply control_lights_run.
Qed.

(** C8.  The season is summer exactly in months 6, 7 and 8; the summer
    months select the on-season window and the others the off-season
    window; and a time is active exactly when it lies in
    [[window_start, window_end]], both ends included. *)
Theorem c8_season_and_window (h : Host) (c : GrowLights) :
  (is_summer_season h = true <->
   now_month h = 6 \/ now_month h = 7 \/ now_month h = 8)
  /\ is_active_time h c =
     time_leb (window_start (now_month h) c) (now_time h) &&
     time_leb (now_time h) (window_end (now_month h) c)
  /\ (time_leb (window_start (now_month h) c) (window_end (now_month h) c) = true ->
      now_time h = window_start (now_month h) c \/
      now_time h = window_end (now_month h) c ->
      is_active_time h c = true).
Proof.
  split; [|split].
  - rewrite is_summer_season_month. unfold summer_month.
    rewrite !orb_true_iff, !Z.eqb_eq. tauto.
  - apply is_active_time_window.
  - intros Hle [E|E]; rewrite is_active_time_window, E, time_leb_refl;
      [exact Hle | rewrite andb_true_r; exact Hle].
Qed.

(** C9.  The daily hook only reports: it returns normally, keeps every
    attribute of the app, and adds exactly one INFO log line naming the
    selected season and its window; it issues no switch command. *)
Theorem c9_update_time_ranges_reports_only (h : Host) (w : world) :
  update_time_ranges h w =
  (Ok tt, mkWorld (self w)
            (trace w ++
             [Log INFO ("Updated to " ++
                        (if is_summer_season h then "summer" else "winter") ++
                        " schedule: " ++
                        (if is_summer_season h then on_season_start (self w)
                         else off_season_start (self w)) ++ " - " ++
                        (if is_summer_season h then on_season_end (self w)
                         else off_season_end (self w)))%string]))
  /\ commands (trace (snd (update_time_ranges h w))) = commands (trace w).
Proof.
  destruct w as [c tr].
  assert (E : update_time_ranges h (mkWorld c tr) =
    (Ok tt, mkWorld c
       (tr ++
        [Log INFO ("Updated to " ++
                   (if is_summer_season h then "summer" else "winter") ++
                   " schedule: " ++
                   (if is_summer_season h then on_season_start c
                    else off_season_start c) ++ " - " ++
                   (if is_summer_season h then on_season_end c
                    else off_season_end c))%string]))).
  { unfold update_time_ranges, try_except, bind, get_self, log, emit. simpl.
    destruct (is_summer_season h); reflexivity. }
  split; [exact E|]. rewrite E. simpl. rewrite commands_app, app_nil_r.
  reflexivity.
Qed.

End Claims2.

Section Claims3.
Context {F : FloatModel}.

(** C10.  [initialize] never checks that a window starts before it ends: a
    configuration whose four times parse is accepted (no error logged, the
    tick scheduled) even when a start is later than its end, and in a
    season whose window is inverted so, [is_active_time] is false at every
    time of day and the tick commands no switch on. *)
Theorem c10_inverted_window_accepted_never_on
    (a : Args) (s : string) (t1 t2 t3 t4 : time) :
  arg_uv_index_sensor a = Some s -> s <> "" ->
  get_default (arg_switches a) [] <> [] ->
  strptime_HM (get_default (arg_off_season_start a) "09:00") = Some t1 ->
  strptime_HM (get_default (arg_off_season_end a) "15:00") = Some t2 ->
  strptime_HM (get_default (arg_on_season_start a) "06:00") = Some t3 ->
  strptime_HM (get_default (arg_on_season_end a) "18:00") = Some t4 ->
  exists c,
    fst (initialize a) = Some c
    /\ existsb is_error (snd (initialize a)) = false
    /\ In (RunEvery CheckConditions "now" (10 * 60)) (schedules (snd (initialize a)))
    /\ off_season_start_time c = t1 /\ off_season_end_time c = t2
    /\ on_season_start_time c = t3 /\ on_season_end_time c = t4
    /\ (forall h : Host,
          time_leb (window_start (now_month h) c) (window_end (now_month h) c) = false ->
          is_active_time h c = false
          /\ forall sw, ~ In (true, sw) (tick_commands h c)).
Proof.
  intros Hs Hne Hw T1 T2 T3 T4.
  unfold initialize. cbv zeta. rewrite Hs.
  unfold truthy_str. destruct (String.eqb_spec s ""); [contradiction|].
  destruct (get_default (arg_switches a) []) as [|x l] eqn:Hsw; [contradiction|].
  unfold parse_time_configs. rewrite T1, T2, T3, T4. simpl.
  eexists. split; [reflexivity|].
  split; [reflexivity|]. split; [auto|].
  do 4 (split; [reflexivity|]).
  intros h Hinv.
  assert (Ha : is_active_time h
                 (mkGrowLights s (get_default (arg_uv_index_threshold a) (py_int 5))
                    (x :: l) (get_default (arg_off_season_start a) "09:00")
                    (get_default (arg_off_season_end a) "15:00")
                    (get_default (arg_on_season_start a) "06:00")
                    (get_default (arg_on_season_end a) "18:00") t1 t2 t3 t4) = false).
  { rewrite is_active_time_window.
    destruct (time_leb (window_start (now_month h) _) (now_time h)) eqn:L1;
      [|reflexivity].
    destruct (time_leb (now_time h) (window_end (now_month h) _)) eqn:L2;
      [|reflexivity].
    rewrite (time_leb_trans _ _ _ L1 L2) in Hinv. discriminate. }
  split; [exact Ha|].
  intros sw. rewrite (tick_inactive h _ Ha). simpl. tauto.
Qed.

End Claims3.

(** ** Concrete instances of C6, C8 and C10 *)

Definition no_sensor_args : @Args ZFloat :=
  mkArgs None None (Some ["switch.grow_1"]) None None None None.

Lemma c6_witness :
  (fst (initialize no_sensor_args) = None
   /\ schedules (snd (initialize no_sensor_args)) = []
   /\ existsb is_error (snd (initialize no_sensor_args)) = true)
  /\ (In (RunEvery CheckConditions "now" (10 * 60)) (schedules (snd (initialize example_args)))
      /\ In (RunDaily UpdateTimeRanges "00:01") (schedules (snd (initialize example_args)))
      /\ existsb is_error (snd (initialize example_args)) = false).
Proof.
  split.
  - apply (proj1 (c6_initialize_validation no_sensor_args)).
    left. left. reflexivity.
  - apply (proj2 (c6_initialize_validation example_args)).
    + exists "sensor.uv_index". split; [reflexivity | discriminate].
    + discriminate.
    + eexists. reflexivity.
    + eexists. reflexivity.
    + eexists. reflexivity.
    + eexists. reflexivity.
Defined.

(** July, exactly at 06:00 and exactly at 18:00: active. *)
Lemma c8_witness :
  is_active_time (lab_host 7 (at_clock 6 0) None None) example_app = true
  /\ is_active_time (lab_host 7 (at_clock 18 0) None None) example_app = true.
Proof.
  split.
  - apply (proj2 (proj2 (c8_season_and_window
                           (lab_host 7 (at_clock 6 0) None None) example_app))).
    + reflexivity.
    + left. reflexivity.
  - apply (proj2 (proj2 (c8_season_and_window
                           (lab_host 7 (at_clock 18 0) None None) example_app))).
    + reflexivity.
    + right. reflexivity.
Defined.

(** A summer window configured as 18:00-06:00. *)
Definition inverted_args : @Args ZFloat :=
  mkArgs (Some "sensor.uv_index") None (Some ["switch.grow_1"])
         None None (Some "18:00") (Some "06:00").

Lemma c10_witness :
  exists c,
    fst (initialize inverted_args) = Some c
    /\ existsb is_error (snd (initialize inverted_args)) = false
    /\ In (RunEvery CheckConditions "now" (10 * 60)) (schedules (snd (initialize inverted_args)))
    /\ off_season_start_time c = at_clock 9 0 /\ off_season_end_time c = at_clock 15 0
    /\ on_season_start_time c = at_clock 18 0 /\ on_season_end_time c = at_clock 6 0
    /\ (forall h : Host,
          time_leb (window_start (now_month h) c) (window_end (now_month h) c) = false ->
          is_active_time h c = false
          /\ forall sw, ~ In (true, sw) (tick_commands h c)).
Proof.
  apply (c10_inverted_window_accepted_never_on inverted_args "sensor.uv_index");
    try reflexivity.
  - discriminate.
  - discriminate.
Defined.

(** * Further properties of the code *)

(** ** [strptime(..., "%H:%M")], as used by [_parse_time_configs] *)





Local Opaque Z.mul.



Local Transparent Z.mul.


(** [HH:MM] with two zero-padded digits each ([f"{h:02d}:{m:02d}"]). *)
Definition two_digits (z : Z) : string :=
  String (ascii_of_nat (48 + Z.to_nat (z / 10)))
    (String (ascii_of_nat (48 + Z.to_nat (z mod 10))) EmptyString).

Definition format_HM (hh mm : Z) : string :=
  (two_digits hh ++ ":" ++ two_digits mm)%string.

Definition zrange (n : nat) : list Z := map Z.of_nat (seq 0 n).

Lemma in_zrange (n : nat) (z : Z) : 0 <= z < Z.of_nat n -> In z (zrange n).
Proof.
  intros H. unfold zrange. apply in_map_iff. exists (Z.to_nat z).
  split; [lia | apply in_seq; lia].
Qed.

Definition roundtrip_ok (hh mm : Z) : bool :=
  match strptime_HM (format_HM hh mm) with
  | Some t => (t_hour t =? hh) && (t_minute t =? mm) &&
              (t_second t =? 0) && (t_micro t =? 0)
  | None => false
  end.

Lemma roundtrip_all :
  forallb (fun hh => forallb (fun mm => roundtrip_ok hh mm) (zrange 60)) (zrange 24)
  = true.
Proof. vm_compute. reflexivity. Qed.



(** X2.  Every time of day written [HH:MM] with zero padding parses back
    to that hour and minute. *)
Theorem strptime_HM_roundtrip (hh mm : Z) :
  0 <= hh <= 23 -> 0 <= mm <= 59 ->
  strptime_HM (format_HM hh mm) = Some (mkTime hh mm 0 0).
Proof.
  intros Hh Hm.
  pose proof roundtrip_all as A. rewrite forallb_forall in A.
  specialize (A hh (in_zrange 24 hh ltac:(lia))).
  rewrite forallb_forall in A. specialize (A mm (in_zrange 60 mm ltac:(lia))).
  unfold roundtrip_ok in A.
  destruct (strptime_HM (format_HM hh mm)) as [[a b c d]|]; [|discriminate].
  simpl in A. rewrite !andb_true_iff, !Z.eqb_eq in A.
  destruct A as [[[-> ->] ->] ->]. reflexivity.
Qed.

Lemma strptime_HM_roundtrip_witness :
  strptime_HM (format_HM 18 30) = Some (mkTime 18 30 0 0).
Proof. apply strptime_HM_roundtrip; lia. Defined.

(** ** [get_uv_index] and [control_lights] *)

Section MethodFacts.
Context {F : FloatModel}.
Local Open Scope list_scope.

(** The log line [control_lights] writes after one switch call. *)
Definition switch_report (h : Host) (b : bool) (sw : string) : event :=
  match host_switch h b sw with
  | Some _ => Log DEBUG ("Set " ++ sw)%string
  | None => Log ERROR ("Error controlling switch " ++ sw)%string
  end.

(** X3.  [get_uv_index] never raises and keeps the app: a missing or
    ["unavailable"] state logs one WARNING and gives [None]; a read that
    raises, or a state [float] refuses, logs one ERROR and gives [None];
    any other state gives its float without logging. *)
Theorem get_uv_index_outcomes (h : Host) (c : GrowLights) (tr : list event) :
  (host_get_state h (uv_sensor c) = None ->
   exists msg, get_uv_index h (mkWorld c tr) = (Ok None, mkWorld c (tr ++ [Log ERROR msg])))
  /\ (host_get_state h (uv_sensor c) = Some None \/
      host_get_state h (uv_sensor c) = Some (Some "unavailable") ->
      exists msg, get_uv_index h (mkWorld c tr) =
                  (Ok None, mkWorld c (tr ++ [Log WARNING msg])))
  /\ (forall s, host_get_state h (uv_sensor c) = Some (Some s) ->
      s <> "unavailable" -> float_of s = None ->
      exists msg, get_uv_index h (mkWorld c tr) = (Ok None, mkWorld c (tr ++ [Log ERROR msg])))
  /\ (forall s x, host_get_state h (uv_sensor c) = Some (Some s) ->
      s <> "unavailable" -> float_of s = Some x ->
      get_uv_index h (mkWorld c tr) = (Ok (Some x), mkWorld c tr)).
Proof.
  unfold get_uv_index, try_except, get_self, get_state, lift, bind, log, emit, ret;
    simpl.
  split; [|split; [|split]].
  - intros E. rewrite E. eexists. reflexivity.
  - intros [E|E]; rewrite E; eexists; reflexivity.
  - intros s E Hne Hf. rewrite E. simpl.
    destruct (String.eqb_spec s "unavailable"); [contradiction|]. simpl.
    rewrite Hf. eexists. reflexivity.
  - intros s x E Hne Hf. rewrite E. simpl.
    destruct (String.eqb_spec s "unavailable"); [contradiction|]. simpl.
    rewrite Hf. reflexivity.
Qed.

Lemma control_switch_step (h : Host) (b : bool) (sw : string) (c : GrowLights)
    (tr : list event) :
  try_except
    (set_switch h b sw ;;; log DEBUG ("Set " ++ sw)%string)
    (log ERROR ("Error controlling switch " ++ sw)%string) (mkWorld c tr)
  = (Ok tt, mkWorld c (tr ++ [SetSwitch b sw; switch_report h b sw])).
Proof.
  unfold try_except, set_switch, bind, log, emit, switch_report; simpl.
  destruct (host_switch h b sw) as [[]|]; simpl; rewrite <- app_assoc; reflexivity.
Qed.

Lemma control_loop_trace (h : Host) (b : bool) (c : GrowLights) (l : list string) :
  forall tr,
    for_each
      (fun sw => try_except
         (set_switch h b sw ;;; log DEBUG ("Set " ++ sw)%string)
         (log ERROR ("Error controlling switch " ++ sw)%string)) l (mkWorld c tr)
    = (Ok tt, mkWorld c (tr ++ flat_map (fun sw => [SetSwitch b sw; switch_report h b sw]) l)).
Proof.
  induction l as [|s l IH]; intros tr.
  - simpl. rewrite app_nil_r. reflexivity.
  - cbn [for_each]. rewrite (bind_ok _ _ _ _ _ (control_switch_step h b s c tr)).
    rewrite IH. simpl. rewrite <- app_assoc. reflexivity.
Qed.

(** X4.  [control_lights] logs the action once, then for every configured
    switch, in order, calls the service and logs DEBUG when it succeeds or
    ERROR when it raises; it never stops early and never raises. *)
Theorem control_lights_trace (h : Host) (b : bool) (c : GrowLights) (tr : list event) :
  control_lights h b (mkWorld c tr) =
  (Ok tt, mkWorld c
     (tr ++ Log INFO (if b then "Turning lights on" else "Turning lights off")
         :: flat_map (fun sw => [SetSwitch b sw; switch_report h b sw]) (switches c))).
Proof.
  unfold control_lights. apply try_except_ok.
  erewrite bind_ok by reflexivity.
  erewrite bind_ok by reflexivity.
  cbn [self trace]. rewrite control_loop_trace. rewrite <- app_assoc. reflexivity.
Qed.

End MethodFacts.

(** ** One tick of [check_conditions] *)

Section TickProps.
Context {F : FloatModel}.

(** X5.  With an empty switch list a tick issues no command
    ([current_state] stays [None] and the command loop is empty). *)
Theorem tick_no_switches_no_command (h : Host) (c : GrowLights) :
  switches c = [] -> tick_commands h c = [].
Proof.
  intros Hs. rewrite tick_commands_decision. unfold tick_decision. rewrite Hs.
  destruct (negb (is_active_time h c)); [reflexivity|].
  destruct (uv_reading h c); [|reflexivity].
  destruct (py_ge _ _ && _); [reflexivity|].
  destruct (py_lt _ _ && _); reflexivity.
Qed.

(** X6.  When reading the first switch raises, the tick issues no command:
    the exception is caught by [check_conditions]' handler. *)
Theorem tick_switch_read_raises_no_command
    (h : Host) (c : GrowLights) (s0 : string) (rest : list string) :
  switches c = s0 :: rest -> host_get_state h s0 = None -> tick_commands h c = [].
Proof.
  intros Hs Hg. rewrite tick_commands_decision. unfold tick_decision. rewrite Hs, Hg.
  destruct (negb (is_active_time h c)); [reflexivity|].
  destruct (uv_reading h c); reflexivity.
Qed.

(** X7.  A tick turns switches on only when the first switch already
    reads ["on"]: the app never turns on lights that are off. *)
Theorem tick_turns_on_only_if_already_on (h : Host) (c : GrowLights) (sw : string) :
  In (true, sw) (tick_commands h c) ->
  exists s0 rest, switches c = s0 :: rest /\ host_get_state h s0 = Some (Some "on").
Proof.
  rewrite tick_commands_decision. unfold tick_decision.
  destruct (negb (is_active_time h c)); [simpl; tauto|].
  destruct (uv_reading h c) as [u|]; [|simpl; tauto].
  destruct (switches c) as [|s0 rest] eqn:Hs.
  - destruct (py_ge _ _ && _); [simpl; tauto|].
    destruct (py_lt _ _ && _); simpl; tauto.
  - destruct (host_get_state h s0) as [cs|] eqn:Hg; [|simpl; tauto].
    destruct (py_ge _ _ && _); [simpl; tauto|].
    destruct (py_lt _ _ && _); [simpl; tauto|].
    intros I. apply in_map_iff in I. destruct I as [x [E _]].
    injection E as Eb _. exists s0, rest. split; [reflexivity|].
    rewrite Hg. destruct cs as [v|]; [|discriminate].
    simpl in Eb. destruct (String.eqb_spec v "on"); [subst; reflexivity | discriminate].
Qed.

(** X8.  The commands of a tick depend only on the clock, the UV sensor's
    state and the first switch's state: the other switches' states and
    the outcome of the switch services play no part. *)
Theorem tick_depends_on_first_switch_only (h1 h2 : Host) (c : GrowLights) :
  now_month h1 = now_month h2 -> now_time h1 = now_time h2 ->
  host_get_state h1 (uv_sensor c) = host_get_state h2 (uv_sensor c) ->
  (forall s0 rest, switches c = s0 :: rest -> host_get_state h1 s0 = host_get_state h2 s0) ->
  tick_commands h1 c = tick_commands h2 c.
Proof.
  intros Em Et Eu Es. rewrite !tick_commands_decision. unfold tick_decision, uv_reading.
  assert (Ea : is_active_time h1 c = is_active_time h2 c).
  { unfold is_active_time, is_summer_season. rewrite Em, Et. reflexivity. }
  rewrite Ea, Eu.
  destruct (switches c) as [|s0 rest] eqn:Hs; [reflexivity|].
  rewrite (Es s0 rest eq_refl). reflexivity.
Qed.

End TickProps.

(** ** Concrete instances of X3-X8 *)

Definition no_switch_app : @GrowLights ZFloat :=
  mkGrowLights "sensor.uv_index" 5 [] "09:00" "15:00" "06:00" "18:00"
    (at_clock 9 0) (at_clock 15 0) (at_clock 6 0) (at_clock 18 0).

Lemma get_uv_index_outcomes_witness :
  get_uv_index (july_10h (Some "7") (Some "on")) (mkWorld example_app []) =
  (Ok (Some 7), mkWorld example_app []).
Proof.
  apply (proj2 (proj2 (proj2 (get_uv_index_outcomes
            (july_10h (Some "7") (Some "on")) example_app [])))
         "7" 7); [reflexivity | discriminate | reflexivity].
Defined.

Lemma tick_no_switches_no_command_witness :
  tick_commands (july_10h (Some "3") (Some "off")) no_switch_app = [].
Proof. apply tick_no_switches_no_command. reflexivity. Defined.

(** The first switch's read raises. *)
Definition broken_switch_host : Host :=
  mkHost 7 (at_clock 10 0)
    (fun e => if String.eqb e "sensor.uv_index" then Some (Some "3") else None)
    (fun _ _ => Some tt).

Lemma tick_switch_read_raises_no_command_witness :
  tick_commands broken_switch_host example_app = [].
Proof.
  apply (tick_switch_read_raises_no_command _ _ "switch.grow_1" ["switch.grow_2"]);
    reflexivity.
Defined.

Lemma tick_turns_on_only_if_already_on_witness :
  exists s0 rest, switches example_app = s0 :: rest /\
    host_get_state (july_10h (Some "7") (Some "on")) s0 = Some (Some "on").
Proof.
  apply (tick_turns_on_only_if_already_on _ _ "switch.grow_1").
  vm_compute. left. reflexivity.
Defined.

(** Same clock, sensor and first switch; the second switch and the
    services differ. *)
Definition other_host : Host :=
  mkHost 7 (at_clock 10 0)
    (fun e => if String.eqb e "switch.grow_2" then Some (Some "on")
              else if String.eqb e "sensor.uv_index" then Some (Some "3")
              else Some (Some "off"))
    (fun _ _ => None).

Lemma tick_depends_on_first_switch_only_witness :
  tick_commands (july_10h (Some "3") (Some "off")) example_app =
  tick_commands other_host example_app.
Proof.
  apply tick_depends_on_first_switch_only; try reflexivity.
  intros s0 rest E. injection E as <- _. reflexivity.
Defined.

(** ** [initialize] on success, and the daily report *)

Section InitProps.
Context {F : FloatModel}.

Lemma initialize_some (a : Args) (c : GrowLights) :
  fst (initialize a) = Some c ->
  exists s x l t1 t2 t3 t4,
    arg_uv_index_sensor a = Some s /\ s <> "" /\
    get_default (arg_switches a) [] = x :: l /\
    strptime_HM (get_default (arg_off_season_start a) "09:00") = Some t1 /\
    strptime_HM (get_default (arg_off_season_end a) "15:00") = Some t2 /\
    strptime_HM (get_default (arg_on_season_start a) "06:00") = Some t3 /\
    strptime_HM (get_default (arg_on_season_end a) "18:00") = Some t4 /\
    c = mkGrowLights s (get_default (arg_uv_index_threshold a) (py_int 5)) (x :: l)
          (get_default (arg_off_season_start a) "09:00")
          (get_default (arg_off_season_end a) "15:00")
          (get_default (arg_on_season_start a) "06:00")
          (get_default (arg_on_season_end a) "18:00") t1 t2 t3 t4 /\
    snd (initialize a) =
      [RunIn CheckConditions 0;
       RunEvery CheckConditions "now" (10 * 60);
       RunDaily UpdateTimeRanges "00:01";
       Log INFO "Grow Lights app initialized successfully"].
Proof.
  unfold initialize. cbv zeta.
  destruct (arg_uv_index_sensor a) as [s|] eqn:Hs; [|discriminate].
  unfold truthy_str. destruct (String.eqb_spec s ""); [discriminate|].
  destruct (get_default (arg_switches a) []) as [|x l] eqn:Hw; [discriminate|].
  unfold parse_time_configs.
  destruct (strptime_HM (get_default (arg_off_season_start a) "09:00")) as [t1|];
    [|discriminate].
  destruct (strptime_HM (get_default (arg_off_season_end a) "15:00")) as [t2|];
    [|discriminate].
  destruct (strptime_HM (get_default (arg_on_season_start a) "06:00")) as [t3|];
    [|discriminate].
  destruct (strptime_HM (get_default (arg_on_season_end a) "18:00")) as [t4|];
    [|discriminate].
  simpl. intros E. injection E as <-.
  exists s, x, l, t1, t2, t3, t4. repeat split; assumption || reflexivity.
Qed.

Lemma initialize_time_strings (a : Args) (c : GrowLights) :
  fst (initialize a) = Some c ->
  strptime_HM (off_season_start c) = Some (off_season_start_time c) /\
  strptime_HM (off_season_end c) = Some (off_season_end_time c) /\
  strptime_HM (on_season_start c) = Some (on_season_start_time c) /\
  strptime_HM (on_season_end c) = Some (on_season_end_time c).
Proof.
  intros E.
  destruct (initialize_some a c E)
    as [s [x [l [t1 [t2 [t3 [t4 [_ [_ [_ [T1 [T2 [T3 [T4 [-> _]]]]]]]]]]]]]]].
  simpl. repeat split; assumption.
Qed.



(** X11.  On an app set up by [initialize], the schedule the daily hook
    reports is the one [is_active_time] enforces: the two reported strings
    parse to the start and end of the window of the current month. *)
Theorem update_time_ranges_reports_effective_window
    (a : Args) (c : GrowLights) (h : Host) (tr : list event) :
  fst (initialize a) = Some c ->
  exists season st en,
    update_time_ranges h (mkWorld c tr) =
      (Ok tt, mkWorld c (tr ++ [Log INFO ("Updated to " ++ season ++ " schedule: " ++
                                          st ++ " - " ++ en)%string])%list)
    /\ strptime_HM st = Some (window_start (now_month h) c)
    /\ strptime_HM en = Some (window_end (now_month h) c).
Proof.
  intros E.
  destruct (initialize_time_strings a c E) as [T1 [T2 [T3 T4]]].
  unfold update_time_ranges, try_except, bind, get_self, log, emit. simpl.
  unfold window_start, window_end. rewrite <- is_summer_season_month.
  destruct (is_summer_season h); eexists; eexists; eexists;
    (split; [reflexivity | split; eassumption]).
Qed.

End InitProps.

(** ** Concrete instances of X9-X11 *)



Lemma update_time_ranges_reports_effective_window_witness :
  exists season st en,
    update_time_ranges (july_10h None None) (mkWorld example_app []) =
      (Ok tt, mkWorld example_app ([] ++ [Log INFO ("Updated to " ++ season ++ " schedule: " ++
                                          st ++ " - " ++ en)%string])%list)
    /\ strptime_HM st = Some (window_start 7 example_app)
    /\ strptime_HM en = Some (window_end 7 example_app).
Proof.
  apply (update_time_ranges_reports_effective_window example_args).
  reflexivity.
Defined.
